(** * The NLPExplainer sentiment-analysis notebook (omnixai/nlp.ipynb)

    The notebook is a linear script: it builds a [Text] batch, a
    transformers pipeline with two adapter lambdas, an [NLPExplainer]
    facade, asks the facade for explanations, renders them and hands them
    to a [Dashboard].  Everything but the two lambdas is a call into a
    library.  The lambdas are embedded as functions; the rest of the
    script is embedded in a state-and-exception monad over an arbitrary
    handler for the library calls, which records every call it makes. *)

From Stdlib Require Import Floats.
From stdpp Require Import gmap strings list fin_maps.


(** ** Exceptions and results *)

(** A Python exception, by class name and argument. *)
Record exn := Exn { exn_class : string; exn_arg : string }.

Definition KeyError (key : string) : exn := Exn "KeyError" key.
Definition NameError (name : string) : exn := Exn "NameError" name.
Definition ValueError (msg : string) : exn := Exn "ValueError" msg.
Definition TypeError (msg : string) : exn := Exn "TypeError" msg.
Definition AttributeError (msg : string) : exn := Exn "AttributeError" msg.

Inductive result (A : Type) : Type :=
| Ok (a : A)
| Raise (e : exn).
Arguments Ok {A} a.
Arguments Raise {A} e.

Definition rbind {A B} (r : result A) (f : A -> result B) : result B :=
  match r with
  | Ok a => f a
  | Raise e => Raise e
  end.

(** [[f a for a in l]]: the elements are evaluated left to right and the
    first exception ends the comprehension. *)
Fixpoint comprehension {A B} (f : A -> result B) (l : list A) : result (list B) :=
  match l with
  | [] => Ok []
  | a :: l' => rbind (f a) (fun b => rbind (comprehension f l') (fun bs => Ok (b :: bs)))
  end.

(** ** Data *)

(** The values a pipeline record holds: a label string and a float score. *)
Inductive pyval :=
| PyStr (s : string)
| PyFloat (f : float).

(** A record of the pipeline's output, [{"label": ..., "score": ...}], is a
    Python dict with string keys. *)
Abbreviation pydict := (gmap string pyval).

(** [s[key]] on a dict. *)
Definition getitem {V} (s : gmap string V) (key : string) : result V :=
  match s !! key with
  | Some v => Ok v
  | None => Raise (KeyError key)
  end.

(** Modelled from the spec: the instances of the class [Text] of
    omnixai.data.text, which the notebook imports: a text-batch value
    wrapping a sequence of input strings, read back through its [values]
    attribute. *)
Record text := TextBatch { values : list string }.

(** numpy's array of a nested list, by its rows (what [tolist] gives back). *)
Record ndarray := NDArray { tolist : list (list pyval) }.

Definition rectangular {A} (rows : list (list A)) : bool :=
  match rows with
  | [] => true
  | r :: rs => forallb (fun r' => Nat.eqb (length r') (length r)) rs
  end.

(** [np.array(rows)] on a list of lists: rows of one length give the
    two-dimensional array of their entries; rows of different lengths are
    refused (NumPy from 1.24 on).  The coercion of the entries to a common
    dtype is left out: on float entries it changes nothing. *)
Definition np_array (rows : list (list pyval)) : result ndarray :=
  if rectangular rows then Ok (NDArray rows)
  else Raise (ValueError "inhomogeneous shape").

(** [a[i, j]], when in range. *)
Definition entry (a : ndarray) (i j : nat) : option pyval :=
  tolist a !! i ≫= (.!! j).

(** ** The two adapters of the notebook *)

(** [preprocess = lambda x: x.values] *)
Definition preprocess (x : text) : list string := values x.

(** [postprocess = lambda outputs:
       np.array([[s["score"] for s in ss] for ss in outputs])] *)
Definition postprocess (outputs : list (list pydict)) : result ndarray :=
  rbind (comprehension (fun ss => comprehension (fun s => getitem s "score") ss) outputs)
        np_array.

(** The prediction function an explainer works with: the model applied
    between the two adapters. *)
Definition predict (model : list string -> result (list (list pydict))) (x : text)
  : result ndarray :=
  rbind (model (preprocess x)) postprocess.

(** The test input of the notebook. *)
Definition sentences : list string :=
  [ "Well, 😴👎🏻😔👎🏻"; "Go if you like to 🤢" ].

(** ** The script *)

Declare Scope script_scope.
Delimit Scope script_scope with script.

Section Notebook.

(** What the libraries hand back is opaque to the script: the pipeline
    object, the facade, an explanation, the dashboard. *)
Context {Pipeline Explainer Explanation DashboardT : Type}.

(** Argument values of the library calls. *)
Inductive value :=
| VStr (s : string)
| VBool (b : bool)
| VStrList (l : list string)
| VText (t : text)
| VPipeline (m : Pipeline)
| VPreprocess (f : text -> list string)
| VPostprocess (f : list (list pydict) -> result ndarray)
| VExplanations (le : gmap string Explanation).

(** The library calls of the notebook, indexed by what they return.  A
    constructor call carries its positional and keyword arguments as
    written; a method call carries its receiver. *)
Inductive extcall : Type -> Type :=
| import_module (name : string) : extcall unit
| set_renderers_default (name : string) : extcall unit
| Text (data : list string) : extcall text
| transformers_pipeline (args : list value) (kwargs : list (string * value))
  : extcall Pipeline
| NLPExplainer (args : list value) (kwargs : list (string * value))
  : extcall Explainer
| explain (self : Explainer) (X : text) : extcall (gmap string Explanation)
| print (line : string) : extcall unit
| ipython_plot (self : Explanation) : extcall unit
| Dashboard (args : list value) (kwargs : list (string * value))
  : extcall DashboardT
| show (self : DashboardT) : extcall unit.

(** One call with its outcome. *)
Inductive event :=
| Event {X} (c : extcall X) (r : result X).

Definition event_exn (ev : event) : option exn :=
  match ev with
  | Event _ (Raise e) => Some e
  | Event _ (Ok _) => None
  end.

Definition returned (ev : event) : Prop := event_exn ev = None.

(** The global names the notebook binds by assignment.  The names its
    imports bind are not tracked: a failed import ends the run before any
    of them is used. *)
Record namespace := Namespace {
  ns_x : option text;
  ns_preprocess : option (text -> list string);
  ns_model : option Pipeline;
  ns_postprocess : option (list (list pydict) -> result ndarray);
  ns_explainer : option Explainer;
  ns_local_explanations : option (gmap string Explanation);
  ns_dashboard : option DashboardT
}.

Definition ns_empty : namespace := Namespace None None None None None None None.

(** The statements of the notebook, in the order of the file. *)
Inductive label :=
| L_import_pio | L_renderer
| L_import_numpy | L_import_transformers | L_import_Text
| L_import_NLPExplainer | L_import_Dashboard
| L_x
| L_preprocess | L_model | L_postprocess | L_explainer
| L_local_explanations | L_print_shap | L_plot_shap | L_print_lime | L_plot_lime
| L_dashboard | L_show.

(** The libraries: some state of their own and an answer to every call. *)
Context {World : Type}.
Variable handle : forall X, extcall X -> World -> result X * World.

Record state := State {
  ns : namespace;
  world : World;
  calls : list event;
  executed : list label
}.

Definition M (A : Type) : Type := state -> result A * state.

Definition ret {A} (a : A) : M A := fun s => (Ok a, s).

Definition bind {A B} (m : M A) (f : A -> M B) : M B :=
  fun s => match m s with
           | (Ok a, s') => f a s'
           | (Raise e, s') => (Raise e, s')
           end.

Definition raise {A} (e : exn) : M A := fun s => (Raise e, s).

Local Notation "x <- m ;; k" := (bind m (fun x => k))
  (at level 100, m at next level, right associativity) : script_scope.
Local Notation "m ;; k" := (bind m (fun _ => k))
  (at level 100, right associativity) : script_scope.
Local Open Scope script_scope.

(** A library call: the handler answers, the call is recorded. *)
Definition call {X} (c : extcall X) : M X :=
  fun s => let (r, w) := handle X c (world s) in
           (r, State (ns s) w (calls s ++ [Event c r]) (executed s)).

Definition mark (l : label) : M unit :=
  fun s => (Ok tt, State (ns s) (world s) (calls s) (executed s ++ [l])).

(** Reading a global name. *)
Definition load {A} (name : string) (field : namespace -> option A) : M A :=
  fun s => match field (ns s) with
           | Some v => (Ok v, s)
           | None => (Raise (NameError name), s)
           end.

(** Binding a global name. *)
Definition store (f : namespace -> namespace) : M unit :=
  fun s => (Ok tt, State (f (ns s)) (world s) (calls s) (executed s)).

Definition set_x v n :=
  Namespace (Some v) (ns_preprocess n) (ns_model n) (ns_postprocess n)
            (ns_explainer n) (ns_local_explanations n) (ns_dashboard n).
Definition set_preprocess v n :=
  Namespace (ns_x n) (Some v) (ns_model n) (ns_postprocess n)
            (ns_explainer n) (ns_local_explanations n) (ns_dashboard n).
Definition set_model v n :=
  Namespace (ns_x n) (ns_preprocess n) (Some v) (ns_postprocess n)
            (ns_explainer n) (ns_local_explanations n) (ns_dashboard n).
Definition set_postprocess v n :=
  Namespace (ns_x n) (ns_preprocess n) (ns_model n) (Some v)
            (ns_explainer n) (ns_local_explanations n) (ns_dashboard n).
Definition set_explainer v n :=
  Namespace (ns_x n) (ns_preprocess n) (ns_model n) (ns_postprocess n)
            (Some v) (ns_local_explanations n) (ns_dashboard n).
Definition set_local_explanations v n :=
  Namespace (ns_x n) (ns_preprocess n) (ns_model n) (ns_postprocess n)
            (ns_explainer n) (Some v) (ns_dashboard n).
Definition set_dashboard v n :=
  Namespace (ns_x n) (ns_preprocess n) (ns_model n) (ns_postprocess n)
            (ns_explainer n) (ns_local_explanations n) (Some v).

(** [d[key]] inside the script. *)
Definition subscript {V} (d : gmap string V) (key : string) : M V :=
  match getitem d key with
  | Ok v => ret v
  | Raise e => raise e
  end.

(** *** Cell 1 *)

(** [import plotly.io as pio] *)
Definition s_import_pio : M unit := call (import_module "plotly.io").

(** [pio.renderers.default = "png"] *)
Definition s_renderer : M unit := call (set_renderers_default "png").

(** *** Cell 2 *)

(** [import numpy as np] *)
Definition s_import_numpy : M unit := call (import_module "numpy").

(** [import transformers] *)
Definition s_import_transformers : M unit := call (import_module "transformers").

(** [from omnixai.data.text import Text] *)
Definition s_import_Text : M unit := call (import_module "omnixai.data.text").

(** [from omnixai.explainers.nlp import NLPExplainer] *)
Definition s_import_NLPExplainer : M unit :=
  call (import_module "omnixai.explainers.nlp").

(** [from omnixai.visualization.dashboard import Dashboard] *)
Definition s_import_Dashboard : M unit :=
  call (import_module "omnixai.visualization.dashboard").

(** *** Cell 3 *)

(** [x = Text([...])] *)
Definition s_x : M unit :=
  x <- call (Text sentences) ;;
  store (set_x x).

(** *** Cell 4 *)

(** [preprocess = lambda x: x.values] *)
Definition s_preprocess : M unit := store (set_preprocess preprocess).

(** [model = transformers.pipeline('sentiment-analysis', model=...,
    return_all_scores=True)] *)
Definition s_model : M unit :=
  m <- call (transformers_pipeline
               [VStr "sentiment-analysis"]
               [("model", VStr "distilbert-base-uncased-finetuned-sst-2-english");
                ("return_all_scores", VBool true)]) ;;
  store (set_model m).

(** [postprocess = lambda outputs: np.array(...)] *)
Definition s_postprocess : M unit := store (set_postprocess postprocess).

(** [explainer = NLPExplainer(explainers=["shap", "lime"],
    mode="classification", model=model, preprocess=preprocess,
    postprocess=postprocess)] *)
Definition s_explainer : M unit :=
  m <- load "model" ns_model ;;
  pre <- load "preprocess" ns_preprocess ;;
  post <- load "postprocess" ns_postprocess ;;
  e <- call (NLPExplainer
               []
               [("explainers", VStrList ["shap"; "lime"]);
                ("mode", VStr "classification");
                ("model", VPipeline m);
                ("preprocess", VPreprocess pre);
                ("postprocess", VPostprocess post)]) ;;
  store (set_explainer e).

(** *** Cell 5 *)

(** [local_explanations = explainer.explain(x)] *)
Definition s_local_explanations : M unit :=
  e <- load "explainer" ns_explainer ;;
  x <- load "x" ns_x ;;
  le <- call (explain e x) ;;
  store (set_local_explanations le).

(** [print("SHAP results:")] *)
Definition s_print_shap : M unit := call (print "SHAP results:").

(** [local_explanations[name].ipython_plot()] *)
Definition plot (name : string) : M unit :=
  le <- load "local_explanations" ns_local_explanations ;;
  e <- subscript le name ;;
  call (ipython_plot e).

(** [local_explanations["shap"].ipython_plot()] *)
Definition s_plot_shap : M unit := plot "shap".

(** [print("LIME results:")] *)
Definition s_print_lime : M unit := call (print "LIME results:").

(** [local_explanations["lime"].ipython_plot()] *)
Definition s_plot_lime : M unit := plot "lime".

(** *** Cell 6 *)

(** [dashboard = Dashboard(instances=x,
    local_explanations=local_explanations)] *)
Definition s_dashboard : M unit :=
  x <- load "x" ns_x ;;
  le <- load "local_explanations" ns_local_explanations ;;
  d <- call (Dashboard
               []
               [("instances", VText x);
                ("local_explanations", VExplanations le)]) ;;
  store (set_dashboard d).

(** [dashboard.show()] *)
Definition s_show : M unit :=
  d <- load "dashboard" ns_dashboard ;;
  call (show d).

(** The cells of the notebook. *)
Definition cells : list (list (label * M unit)) :=
  [ [ (L_import_pio, s_import_pio); (L_renderer, s_renderer) ];
    [ (L_import_numpy, s_import_numpy);
      (L_import_transformers, s_import_transformers);
      (L_import_Text, s_import_Text);
      (L_import_NLPExplainer, s_import_NLPExplainer);
      (L_import_Dashboard, s_import_Dashboard) ];
    [ (L_x, s_x) ];
    [ (L_preprocess, s_preprocess); (L_model, s_model);
      (L_postprocess, s_postprocess); (L_explainer, s_explainer) ];
    [ (L_local_explanations, s_local_explanations);
      (L_print_shap, s_print_shap); (L_plot_shap, s_plot_shap);
      (L_print_lime, s_print_lime); (L_plot_lime, s_plot_lime) ];
    [ (L_dashboard, s_dashboard); (L_show, s_show) ] ].

(** Running all cells runs their statements one after the other. *)
Definition script : list (label * M unit) := concat cells.

(** Statements run in order; the first exception ends the run. *)
Fixpoint exec (p : list (label * M unit)) : M unit :=
  match p with
  | [] => ret tt
  | (l, body) :: p' => mark l ;; body ;; exec p'
  end.

Definition init (w : World) : state := State ns_empty w [] [].

(** A run of the notebook in a fresh kernel. *)
Definition run (w : World) : result unit * state := exec script (init w).

End Notebook.

(** ** Reading a run *)

(** The five steps of the flow the notebook goes through. *)
Inductive step :=
| ConstructInput
| ConstructModel
| ConstructFacade
| Explain
| Visualize.

(** The step a statement belongs to.  The imports and the renderer setting
    of the first two cells come before the flow; the cell that calls
    [explain] also displays what it obtained. *)
Definition step_of (l : label) : option step :=
  match l with
  | L_import_pio | L_renderer | L_import_numpy | L_import_transformers
  | L_import_Text | L_import_NLPExplainer | L_import_Dashboard => None
  | L_x => Some ConstructInput
  | L_preprocess | L_model | L_postprocess => Some ConstructModel
  | L_explainer => Some ConstructFacade
  | L_local_explanations | L_print_shap | L_plot_shap | L_print_lime | L_plot_lime =>
      Some Explain
  | L_dashboard | L_show => Some Visualize
  end.

#[global] Instance step_eq_dec : EqDecision step.
Proof. solve_decision. Defined.

(** Consecutive statements of one step count as that step once. *)
Fixpoint squash (l : list step) : list step :=
  match l with
  | [] => []
  | a :: l' =>
      match l' with
      | b :: _ => if decide (a = b) then squash l' else a :: squash l'
      | [] => [a]
      end
  end.

Definition steps (ls : list label) : list step := squash (omap step_of ls).

Definition flow : list step :=
  [ConstructInput; ConstructModel; ConstructFacade; Explain; Visualize].

(** The value of a keyword argument. *)
Fixpoint kwarg {V} (name : string) (kwargs : list (string * V)) : option V :=
  match kwargs with
  | [] => None
  | (k, v) :: rest => if String.eqb k name then Some v else kwarg name rest
  end.

Section Projections.

Context {Pipeline Explainer Explanation DashboardT : Type}.
Local Abbreviation event' := (@event Pipeline Explainer Explanation DashboardT).

(** The arguments of a facade construction. *)
Definition facade_call (ev : event')
  : option (list (@value Pipeline Explanation) * list (string * @value Pipeline Explanation)) :=
  match ev with
  | Event (NLPExplainer args kwargs) _ => Some (args, kwargs)
  | _ => None
  end.

(** The pipeline a construction call returned. *)
Definition pipeline_made (ev : event') : option Pipeline :=
  match ev with
  | Event (transformers_pipeline _ _) (Ok m) => Some m
  | _ => None
  end.

(** The arguments of a dashboard construction. *)
Definition dashboard_call (ev : event')
  : option (list (@value Pipeline Explanation) * list (string * @value Pipeline Explanation)) :=
  match ev with
  | Event (Dashboard args kwargs) _ => Some (args, kwargs)
  | _ => None
  end.

(** The dashboard a [show] call starts. *)
Definition shown (ev : event') : option DashboardT :=
  match ev with
  | Event (show d) _ => Some d
  | _ => None
  end.

(** The receiver and argument of an [explain] call. *)
Definition explain_call (ev : event') : option (Explainer * text) :=
  match ev with
  | Event (explain e x) _ => Some (e, x)
  | _ => None
  end.

(** The explanation an [ipython_plot] call renders. *)
Definition plotted (ev : event') : option Explanation :=
  match ev with
  | Event (ipython_plot e) _ => Some e
  | _ => None
  end.

End Projections.

Section Answers.

Context {Pipeline Explainer Explanation DashboardT : Type}.

(** The batch a [Text] call returned, with the strings it was given. *)
Definition text_made (ev : @event Pipeline Explainer Explanation DashboardT)
  : option (list string * text) :=
  match ev with
  | Event (Text data) (Ok x) => Some (data, x)
  | _ => None
  end.

(** The facade a construction call returned. *)
Definition facade_made (ev : @event Pipeline Explainer Explanation DashboardT)
  : option Explainer :=
  match ev with
  | Event (NLPExplainer _ _) (Ok fac) => Some fac
  | _ => None
  end.

(** The mapping an [explain] call returned. *)
Definition explained (ev : @event Pipeline Explainer Explanation DashboardT)
  : option (gmap string Explanation) :=
  match ev with
  | Event (explain _ _) (Ok le) => Some le
  | _ => None
  end.

(** The dashboard a construction call returned. *)
Definition dashboard_made (ev : @event Pipeline Explainer Explanation DashboardT)
  : option DashboardT :=
  match ev with
  | Event (Dashboard _ _) (Ok d) => Some d
  | _ => None
  end.

End Answers.

Section Flow.

Context {Pipeline Explainer Explanation DashboardT : Type}.

(** The step of the flow a library call carries out: constructing the
    input batch, the model callable, the facade, asking for the
    explanations, constructing and starting the dashboard.  Imports, the
    renderer setting, printing and rendering carry out none. *)
Definition step_of_call (ev : @event Pipeline Explainer Explanation DashboardT)
  : option step :=
  match ev with
  | Event (Text _) _ => Some ConstructInput
  | Event (transformers_pipeline _ _) _ => Some ConstructModel
  | Event (NLPExplainer _ _) _ => Some ConstructFacade
  | Event (explain _ _) _ => Some Explain
  | Event (Dashboard _ _) _ => Some Visualize
  | Event (show _) _ => Some Visualize
  | _ => None
  end.

(** The steps the calls of a trace carry out, in order. *)
Definition call_steps (tr : list (@event Pipeline Explainer Explanation DashboardT))
  : list step :=
  squash (omap step_of_call tr).

(** The calls of a trace that carry out a step of the flow. *)
Definition flow_calls (tr : list (@event Pipeline Explainer Explanation DashboardT))
  : list (@event Pipeline Explainer Explanation DashboardT) :=
  omap (fun ev => match step_of_call ev with Some _ => Some ev | None => None end) tr.

End Flow.

Section Statements.

Context {Pipeline Explainer Explanation DashboardT World : Type}.

(** What one statement may do to the state: it never touches the record
    of executed statements; when it ends normally the calls it made all
    returned; when it raises, the names are bound as before and either it
    made no call or its one call raised that exception. *)
Definition atomic (body : @M Pipeline Explainer Explanation DashboardT World unit) : Prop :=
  forall s r s',
    body s = (r, s') ->
    executed s' = executed s /\
    exists new,
      calls s' = calls s ++ new /\
      match r with
      | Ok _ => Forall returned new
      | Raise e =>
          ns s' = ns s /\
          (new = [] \/ exists X (c : @extcall _ _ _ _ X), new = [Event c (Raise e)])
      end.

(** The calls of a trace were answered by the handler one after the other,
    taking the libraries from state [w] to state [w']. *)
Fixpoint threads
    (handle : forall X, @extcall Pipeline Explainer Explanation DashboardT X ->
                        World -> result X * World)
    (tr : list (@event Pipeline Explainer Explanation DashboardT)) (w w' : World) : Prop :=
  match tr with
  | [] => w' = w
  | Event c r :: tr' => exists w1, handle _ c w = (r, w1) /\ threads handle tr' w1 w'
  end.

End Statements.

(** ** The library, from the specification *)

Module Omnixai.

(** What the engines and the dashboard server are asked to do. *)
Inductive access :=
| EngineRun (name : string)
| ServerStart.

Section Library.

(** The pipeline object, an explanation, and the state of everything that
    is neither the facade nor the dashboard. *)
Variables (Pipeline Explanation Env : Type).

(** Calling the transformers pipeline on a batch of strings. *)
Variable pipeline_call : Pipeline -> list string -> result (list (list pydict)).

(** The explanation-method implementations (SHAP, LIME, ...), by name: given
    the prediction function and the instances, an explanation. *)
Variable engine : string -> (text -> result ndarray) -> text -> result Explanation.

(** The dashboard server, started on the instances and their explanations. *)
Variable serve : text -> gmap string Explanation -> result unit.

(** Modelled from the spec: the explainer facade of omnixai.explainers.nlp,
    which the notebook imports: a configuration object holding the list of
    explainer-method identifiers, the task mode identifier, the model
    callable, the preprocessing function and the postprocessing function. *)
Record facade := Facade {
  explainers : list string;
  mode : string;
  model : Pipeline;
  fa_preprocess : text -> list string;
  fa_postprocess : list (list pydict) -> result ndarray
}.

(** Modelled from the spec: the dashboard of omnixai.visualization.dashboard,
    which the notebook imports: built from input data and explanations. *)
Record dashboard := MkDashboard {
  instances : text;
  local_explanations : gmap string Explanation
}.

(** The calls that reach neither the facade nor the dashboard: imports, the
    renderer setting, the pipeline construction, printing, rendering. *)
Variable other :
  forall X, @extcall Pipeline facade Explanation dashboard X -> Env -> result X * Env.

(** Modelled from the spec: configuring the facade with its five
    parameters. *)
Definition new_facade (args : list (@value Pipeline Explanation))
    (kwargs : list (string * @value Pipeline Explanation)) : result facade :=
  match args, kwarg "explainers" kwargs, kwarg "mode" kwargs, kwarg "model" kwargs,
        kwarg "preprocess" kwargs, kwarg "postprocess" kwargs with
  | [], Some (VStrList names), Some (VStr md), Some (VPipeline m),
    Some (VPreprocess pre), Some (VPostprocess post) =>
      Ok (Facade names md m pre post)
  | _, _, _, _, _, _ => Raise (TypeError "NLPExplainer")
  end.

(** Modelled from the spec: constructing the dashboard from input data and
    explanations. *)
Definition new_dashboard (args : list (@value Pipeline Explanation))
    (kwargs : list (string * @value Pipeline Explanation)) : result dashboard :=
  match args, kwarg "instances" kwargs, kwarg "local_explanations" kwargs with
  | [], Some (VText x), Some (VExplanations le) => Ok (MkDashboard x le)
  | _, _, _ => Raise (TypeError "Dashboard")
  end.

(** The prediction function the facade hands to an engine. *)
Definition predict_function (fa : facade) : text -> result ndarray :=
  fun x => rbind (pipeline_call (model fa) (fa_preprocess fa x)) (fa_postprocess fa).

(** Modelled from the spec: explanation generation.  The facade dispatches
    the request to the implementation of each configured name in turn and
    returns the mapping from method name to explanation object. *)
Fixpoint dispatch (f : text -> result ndarray) (x : text) (names : list string)
    (acc : gmap string Explanation) (log : list access)
  : result (gmap string Explanation) * list access :=
  match names with
  | [] => (Ok acc, log)
  | name :: rest =>
      match engine name f x with
      | Ok e => dispatch f x rest (<[name := e]> acc) (log ++ [EngineRun name])
      | Raise err => (Raise err, log ++ [EngineRun name])
      end
  end.

(** What a call asks of the engines and the server when it returns. *)
Definition asks {X} (c : @extcall Pipeline facade Explanation dashboard X) : list access :=
  match c with
  | explain fa _ => EngineRun <$> explainers fa
  | show _ => [ServerStart]
  | _ => []
  end.

(** The state of the libraries: the rest, and the record of what the
    engines and the server were asked. *)
Definition world : Type := Env * list access.

Definition accesses (w : world) : list access := snd w.

(** Modelled from the spec: the library calls of the notebook answered by
    the facade, the dashboard and the rest. *)
Definition handle (X : Type) (c : @extcall Pipeline facade Explanation dashboard X)
  : world -> result X * world :=
  match c in @extcall _ _ _ _ X return world -> result X * world with
  | Text data => fun w => (Ok (TextBatch data), w)
  | NLPExplainer args kwargs => fun w => (new_facade args kwargs, w)
  | explain fa x => fun w =>
      let (r, log) := dispatch (predict_function fa) x (explainers fa) ∅ (snd w) in
      (r, (fst w, log))
  | Dashboard args kwargs => fun w => (new_dashboard args kwargs, w)
  | show d => fun w =>
      (serve (instances d) (local_explanations d), (fst w, snd w ++ [ServerStart]))
  | import_module name => fun w =>
      let (r, env) := other _ (import_module name) (fst w) in (r, (env, snd w))
  | set_renderers_default name => fun w =>
      let (r, env) := other _ (set_renderers_default name) (fst w) in (r, (env, snd w))
  | transformers_pipeline args kwargs => fun w =>
      let (r, env) := other _ (transformers_pipeline args kwargs) (fst w) in
      (r, (env, snd w))
  | print line => fun w =>
      let (r, env) := other _ (print line) (fst w) in (r, (env, snd w))
  | ipython_plot e => fun w =>
      let (r, env) := other _ (ipython_plot e) (fst w) in (r, (env, snd w))
  end.

End Library.

End Omnixai.

(** ** A sample instance of the library *)

(** A small instance to run the notebook on: the pipeline object carries
    nothing and scores every input one half for each class, an explanation
    is the name of the method that made it, and an engine fails when its
    name is listed in [failing]. *)
Module Sample.

Definition other (X : Type)
    (c : @extcall unit (Omnixai.facade unit) string (Omnixai.dashboard string) X)
    (env : unit) : result X * unit :=
  match c in @extcall _ _ _ _ X return result X * unit with
  | import_module _ => (Ok tt, env)
  | set_renderers_default _ => (Ok tt, env)
  | transformers_pipeline _ _ => (Ok tt, env)
  | print _ => (Ok tt, env)
  | ipython_plot _ => (Ok tt, env)
  | Text _ => (Raise (Exn "NotImplementedError" "Text"), env)
  | NLPExplainer _ _ => (Raise (Exn "NotImplementedError" "NLPExplainer"), env)
  | explain _ _ => (Raise (Exn "NotImplementedError" "explain"), env)
  | Dashboard _ _ => (Raise (Exn "NotImplementedError" "Dashboard"), env)
  | show _ => (Raise (Exn "NotImplementedError" "show"), env)
  end.

Definition pipeline_call (m : unit) (inputs : list string) : result (list (list pydict)) :=
  Ok ((fun _ => [ {[ "label" := PyStr "NEGATIVE"; "score" := PyFloat 0.5%float ]};
                  {[ "label" := PyStr "POSITIVE"; "score" := PyFloat 0.5%float ]} ])
        <$> inputs).

Definition engine (failing : list string) (name : string)
    (f : text -> result ndarray) (x : text) : result string :=
  if bool_decide (name ∈ failing) then Raise (Exn "RuntimeError" name)
  else rbind (f x) (fun _ => Ok name).

Definition serve (x : text) (le : gmap string string) : result unit := Ok tt.

Definition handle (failing : list string) :=
  Omnixai.handle unit string unit pipeline_call (engine failing) serve other.

Definition start : Omnixai.world unit := (tt, []).

(** A library whose calls all return and whose [explain] returns the
    mapping [le] it is given, whatever the facade was configured with. *)
Definition answering (le : gmap string string) (X : Type)
    (c : @extcall unit unit string unit X) (w : unit) : result X * unit :=
  match c in @extcall _ _ _ _ X return result X * unit with
  | import_module _ => (Ok tt, w)
  | set_renderers_default _ => (Ok tt, w)
  | Text data => (Ok (TextBatch data), w)
  | transformers_pipeline _ _ => (Ok tt, w)
  | NLPExplainer _ _ => (Ok tt, w)
  | explain _ _ => (Ok le, w)
  | print _ => (Ok tt, w)
  | ipython_plot _ => (Ok tt, w)
  | Dashboard _ _ => (Ok tt, w)
  | show _ => (Ok tt, w)
  end.

End Sample.

(** ** The adapters on shared objects *)

(** In the interpreter the arguments of the two lambdas are references to
    objects that the caller still holds: the [Text] batch and its list, the
    list of lists of dicts the pipeline returned.  This second embedding of
    the lambdas runs them on a store of such objects; strings and floats
    are immutable and stand for themselves. *)
Module Store.

Abbreviation loc := nat.

Inductive hval :=
| HVal (v : pyval)
| HRef (l : loc).

Inductive hobj :=
| OText (values : hval)
| OList (items : list hval)
| ODict (fields : gmap string pyval)
| OArray (rows : list (list pyval)).

Abbreviation heap := (gmap loc hobj).

(** [x.values] *)
Definition getattr_values (h : heap) (x : hval) : result hval :=
  match x with
  | HRef l =>
      match h !! l with
      | Some (OText v) => Ok v
      | _ => Raise (AttributeError "values")
      end
  | HVal _ => Raise (AttributeError "values")
  end.

(** The elements [for s in v] goes through.  Only lists are covered:
    iterating anything else is given as a TypeError. *)
Definition iter (h : heap) (v : hval) : result (list hval) :=
  match v with
  | HRef l =>
      match h !! l with
      | Some (OList items) => Ok items
      | _ => Raise (TypeError "not iterable")
      end
  | HVal _ => Raise (TypeError "not iterable")
  end.

(** [s[key]] *)
Definition subscript (h : heap) (s : hval) (key : string) : result pyval :=
  match s with
  | HRef l =>
      match h !! l with
      | Some (ODict fields) => getitem fields key
      | _ => Raise (TypeError "not subscriptable")
      end
  | HVal _ => Raise (TypeError "not subscriptable")
  end.

(** [preprocess = lambda x: x.values]: the result is the list object the
    batch holds, not a copy. *)
Definition preprocess (h : heap) (x : hval) : result hval * heap :=
  (getattr_values h x, h).

(** [[[s["score"] for s in ss] for ss in outputs]] *)
Definition scores (h : heap) (outputs : hval) : result (list (list pyval)) :=
  rbind (iter h outputs)
        (comprehension
           (fun ss => rbind (iter h ss) (comprehension (fun s => subscript h s "score")))).

(** [postprocess = lambda outputs: np.array(...)]: the array is a new
    object; the lists of the comprehension are temporaries nobody else
    holds and are not kept in the store. *)
Definition postprocess (h : heap) (outputs : hval) : result hval * heap :=
  match rbind (scores h outputs) np_array with
  | Ok a => let l := fresh (dom h) in (Ok (HRef l), <[l := OArray (tolist a)]> h)
  | Raise e => (Raise e, h)
  end.

(** What a reference stands for. *)
Definition read_list {A} (rd : hval -> option A) (h : heap) (v : hval) : option (list A) :=
  match v with
  | HRef l =>
      match h !! l with
      | Some (OList items) => mapM rd items
      | _ => None
      end
  | HVal _ => None
  end.

Definition read_string (v : hval) : option string :=
  match v with
  | HVal (PyStr s) => Some s
  | _ => None
  end.

Definition read_text (h : heap) (v : hval) : option text :=
  match v with
  | HRef l =>
      match h !! l with
      | Some (OText v') => TextBatch <$> read_list read_string h v'
      | _ => None
      end
  | HVal _ => None
  end.

Definition read_dict (h : heap) (v : hval) : option pydict :=
  match v with
  | HRef l =>
      match h !! l with
      | Some (ODict fields) => Some fields
      | _ => None
      end
  | HVal _ => None
  end.

Definition read_outputs (h : heap) (v : hval) : option (list (list pydict)) :=
  read_list (read_list (read_dict h) h) h v.

Definition read_array (h : heap) (v : hval) : option ndarray :=
  match v with
  | HRef l =>
      match h !! l with
      | Some (OArray rows) => Some (NDArray rows)
      | _ => None
      end
  | HVal _ => None
  end.

(** The outcome of a lambda, read in the store it leaves. *)
Definition read_result {A} (rd : heap -> hval -> option A) (out : result hval * heap)
  : option (result A) :=
  match fst out with
  | Ok v => Ok <$> rd (snd out) v
  | Raise e => Some (Raise e)
  end.

End Store.

(** ** Facts about the adapters *)

Example postprocess_two_by_two :
  postprocess
    [ [ {[ "label" := PyStr "NEGATIVE"; "score" := PyFloat 0.75%float ]};
        {[ "label" := PyStr "POSITIVE"; "score" := PyFloat 0.25%float ]} ];
      [ {[ "label" := PyStr "NEGATIVE"; "score" := PyFloat 0.5%float ]};
        {[ "label" := PyStr "POSITIVE"; "score" := PyFloat 0.5%float ]} ] ]
  = Ok (NDArray [ [PyFloat 0.75%float; PyFloat 0.25%float];
                  [PyFloat 0.5%float; PyFloat 0.5%float] ]).
Proof. vm_compute. reflexivity. Qed.

Example postprocess_missing_score :
  postprocess [ [ {[ "label" := PyStr "NEGATIVE" ]} ] ] = Raise (KeyError "score").
Proof. vm_compute. reflexivity. Qed.


(** A comprehension succeeds exactly when every element does, and then
    lists the results in order. *)
Lemma comprehension_Ok {A B} (f : A -> result B) (l : list A) (bs : list B) :
  comprehension f l = Ok bs <-> Forall2 (fun a b => f a = Ok b) l bs.
Proof.
  revert bs. induction l as [|a l IH]; intros bs; simpl.
  - split.
    + intros [= <-]. constructor.
    + intros H. inversion H. reflexivity.
  - destruct (f a) as [b|e] eqn:Ha; simpl.
    + destruct (comprehension f l) as [bs'|e] eqn:Hl; simpl.
      * split.
        -- intros [= <-]. constructor; [assumption | by apply IH].
        -- intros H. inversion H as [|? b' ? bs'' Hb Hrest]; subst.
           apply IH in Hrest. congruence.
      * split; [discriminate |].
        intros H. inversion H as [|? b' ? bs'' Hb Hrest]; subst.
        apply IH in Hrest. discriminate.
    + split; [discriminate |].
      intros H. inversion H; congruence.
Qed.

Lemma comprehension_total {A B} (f : A -> result B) (l : list A) :
  (forall a, a ∈ l -> exists b, f a = Ok b) ->
  exists bs, comprehension f l = Ok bs.
Proof.
  induction l as [|a l IH]; intros H; simpl.
  - by eexists.
  - destruct (H a) as [b Hb]; [left |]. rewrite Hb. simpl.
    destruct IH as [bs Hbs].
    + intros a' Ha'. apply H. by right.
    + rewrite Hbs. simpl. by eexists.
Qed.

Lemma rectangular_rows {A} (rows : list (list A)) (k : nat) :
  (forall r, r ∈ rows -> length r = k) -> rectangular rows = true.
Proof.
  destruct rows as [|r rs]; [done |]. intros H. simpl.
  apply forallb_forall. intros r' Hr'. apply Nat.eqb_eq.
  rewrite (H r), (H r'); [done | | left].
  right. by apply list_elem_of_In.
Qed.

Lemma preprocess_values (L : list string) : preprocess (TextBatch L) = L.
Proof. reflexivity. Qed.

(** C3: on n sequences of k records that each carry a float under "score",
    postprocess returns an array of n rows of k entries whose entry (i, j)
    is the "score" field of the j-th record of the i-th sequence; so the
    model between the two adapters yields these scores for the text. *)
Theorem postprocess_scores (outputs : list (list pydict)) (n k : nat) :
  length outputs = n ->
  (forall i ss, outputs !! i = Some ss ->
     length ss = k /\
     forall j s, ss !! j = Some s -> exists f, s !! "score" = Some (PyFloat f)) ->
  exists a,
    postprocess outputs = Ok a /\
    length (tolist a) = n /\
    (forall i row, tolist a !! i = Some row -> length row = k) /\
    (forall i j ss s, outputs !! i = Some ss -> ss !! j = Some s ->
       entry a i j = s !! "score") /\
    (forall model x, model (preprocess x) = Ok outputs -> predict model x = Ok a).
Proof.
  intros Hn Hrec.
  destruct (comprehension_total
              (fun ss => comprehension (fun s : pydict => getitem s "score") ss) outputs)
    as [rows Hrows].
  { intros ss [i Hi]%list_elem_of_lookup.
    apply comprehension_total. intros s [j Hj]%list_elem_of_lookup.
    destruct (Hrec i ss Hi) as [_ Hs]. destruct (Hs j s Hj) as [f Hf].
    exists (PyFloat f). unfold getitem. by rewrite Hf. }
  pose proof Hrows as Hall. apply comprehension_Ok in Hall.
  assert (Hlen : forall i row, rows !! i = Some row -> length row = k).
  { intros i row Hi.
    destruct (Forall2_lookup_r _ _ _ _ _ Hall Hi) as (ss & Hss & Hrow).
    apply comprehension_Ok, Forall2_length in Hrow.
    destruct (Hrec i ss Hss) as [<- _]. done. }
  assert (Hrect : rectangular rows = true).
  { apply (rectangular_rows rows k).
    intros r [i Hi]%list_elem_of_lookup. by apply (Hlen i). }
  assert (Hpost : postprocess outputs = Ok (NDArray rows)).
  { unfold postprocess. rewrite Hrows. simpl. unfold np_array. by rewrite Hrect. }
  exists (NDArray rows). split; [exact Hpost |]. simpl.
  split; [by rewrite <- (Forall2_length _ _ _ Hall) |].
  split; [exact Hlen |]. split.
  - intros i j ss s Hi Hj. unfold entry. simpl.
    destruct (Forall2_lookup_l _ _ _ _ _ Hall Hi) as (row & Hrow & Hc).
    rewrite Hrow. simpl. apply comprehension_Ok in Hc.
    destruct (Forall2_lookup_l _ _ _ _ _ Hc Hj) as (v & Hv & Hg).
    rewrite Hv. unfold getitem in Hg.
    destruct (s !! "score"); [congruence | discriminate].
  - intros model x Hm. unfold predict. rewrite Hm. exact Hpost.
Qed.

Lemma postprocess_scores_witness :
  exists a,
    postprocess
      [ [ {[ "label" := PyStr "NEGATIVE"; "score" := PyFloat 0.75%float ]};
          {[ "label" := PyStr "POSITIVE"; "score" := PyFloat 0.25%float ]} ];
        [ {[ "label" := PyStr "NEGATIVE"; "score" := PyFloat 0.5%float ]};
          {[ "label" := PyStr "POSITIVE"; "score" := PyFloat 0.5%float ]} ] ] = Ok a /\
    entry a 1 0 = Some (PyFloat 0.5%float).
Proof.
  destruct (postprocess_scores
              [ [ {[ "label" := PyStr "NEGATIVE"; "score" := PyFloat 0.75%float ]};
                  {[ "label" := PyStr "POSITIVE"; "score" := PyFloat 0.25%float ]} ];
                [ {[ "label" := PyStr "NEGATIVE"; "score" := PyFloat 0.5%float ]};
                  {[ "label" := PyStr "POSITIVE"; "score" := PyFloat 0.5%float ]} ] ] 2 2)
    as (a & Ha & _ & _ & Hentry & _).
  - reflexivity.
  - intros i ss Hi.
    destruct i as [|[|i]]; simpl in Hi; [| |discriminate]; injection Hi as <-;
      (split; [reflexivity |]); intros j s Hj;
      (destruct j as [|[|j]]; simpl in Hj; [| |discriminate]); injection Hj as <-;
      eexists; vm_compute; reflexivity.
  - exists a. split; [exact Ha |].
    erewrite Hentry; [| reflexivity | reflexivity]. vm_compute. reflexivity.
Defined.

(** ** Facts about the adapters on shared objects *)

Lemma comprehension_read {A B C} (rd : A -> option B) (f : A -> result C)
    (g : B -> result C) (items : list A) (l : list B) :
  (forall a b, rd a = Some b -> f a = g b) ->
  mapM rd items = Some l ->
  comprehension f items = comprehension g l.
Proof.
  intros Hfg H. apply mapM_Some in H.
  induction H as [|a b items l Hab _ IH]; simpl; [done |].
  by rewrite (Hfg a b Hab), IH.
Qed.

Lemma iter_read {A} (rd : Store.hval -> option A) (h : Store.heap) (v : Store.hval)
    (l : list A) :
  Store.read_list rd h v = Some l ->
  exists items, Store.iter h v = Ok items /\ mapM rd items = Some l.
Proof.
  unfold Store.read_list, Store.iter. intros H.
  destruct v as [|loc]; [discriminate |].
  destruct (h !! loc) as [[| items | |]|]; try discriminate.
  by exists items.
Qed.

Lemma subscript_read (h : Store.heap) (s : Store.hval) (d : pydict) (key : string) :
  Store.read_dict h s = Some d -> Store.subscript h s key = getitem d key.
Proof.
  unfold Store.read_dict, Store.subscript. intros H.
  destruct s as [|loc]; [discriminate |].
  destruct (h !! loc) as [[| | fields |]|]; try discriminate.
  by injection H as ->.
Qed.

(** On a well-formed argument the store-level comprehension computes what
    the comprehension of [postprocess] computes on the lists it stands for. *)
Lemma scores_read (h : Store.heap) (v : Store.hval) (outs : list (list pydict)) :
  Store.read_outputs h v = Some outs ->
  Store.scores h v
  = comprehension (fun ss => comprehension (fun s : pydict => getitem s "score") ss) outs.
Proof.
  unfold Store.read_outputs, Store.scores. intros H.
  destruct (iter_read _ _ _ _ H) as (items & -> & Hitems). simpl.
  eapply comprehension_read; [| exact Hitems].
  intros ss l Hss.
  destruct (iter_read _ _ _ _ Hss) as (dicts & -> & Hdicts). simpl.
  eapply comprehension_read; [| exact Hdicts].
  intros s d Hs. by apply subscript_read.
Qed.

Lemma postprocess_read (h : Store.heap) (v : Store.hval) (outs : list (list pydict)) :
  Store.read_outputs h v = Some outs ->
  Store.read_result Store.read_array (Store.postprocess h v) = Some (postprocess outs).
Proof.
  intros H. unfold Store.postprocess, postprocess.
  rewrite (scores_read h v outs H).
  destruct (rbind _ np_array) as [[rows]|e]; [| done].
  unfold Store.read_result, Store.read_array. simpl.
  by rewrite lookup_insert_eq.
Qed.

Lemma preprocess_read (h : Store.heap) (x : Store.hval) (t : text) :
  Store.read_text h x = Some t ->
  Store.read_result (Store.read_list Store.read_string) (Store.preprocess h x)
  = Some (Ok (preprocess t)).
Proof.
  unfold Store.read_text, Store.preprocess, Store.read_result, Store.getattr_values.
  intros H. destruct x as [|loc]; [discriminate |].
  destruct (h !! loc) as [[v' | | |]|]; try discriminate. simpl.
  destruct (Store.read_list Store.read_string h v') as [l|]; [| discriminate].
  by injection H as <-.
Qed.

(** C10: the two adapters are pure and deterministic.  Whatever they are
    given, preprocess leaves the store as it is and postprocess only adds
    its new array, every object that was there staying as it was; and on
    the arguments they are meant for their outcome is the one the functions
    [preprocess] and [postprocess] compute from what the argument stands
    for, so that equal inputs give equal outputs in whatever store. *)
Theorem adapters_pure :
  (forall h x, snd (Store.preprocess h x) = h) /\
  (forall (h : Store.heap) outputs, h ⊆ snd (Store.postprocess h outputs)) /\
  (forall h x t,
     Store.read_text h x = Some t ->
     Store.read_result (Store.read_list Store.read_string) (Store.preprocess h x)
     = Some (Ok (preprocess t))) /\
  (forall h outputs outs,
     Store.read_outputs h outputs = Some outs ->
     Store.read_result Store.read_array (Store.postprocess h outputs)
     = Some (postprocess outs)) /\
  (forall h1 h2 x1 x2 t,
     Store.read_text h1 x1 = Some t -> Store.read_text h2 x2 = Some t ->
     Store.read_result (Store.read_list Store.read_string) (Store.preprocess h1 x1)
     = Store.read_result (Store.read_list Store.read_string) (Store.preprocess h2 x2)) /\
  (forall h1 h2 o1 o2 outs,
     Store.read_outputs h1 o1 = Some outs -> Store.read_outputs h2 o2 = Some outs ->
     Store.read_result Store.read_array (Store.postprocess h1 o1)
     = Store.read_result Store.read_array (Store.postprocess h2 o2)).
Proof.
  split; [reflexivity |]. split; [| split; [| split; [| split]]].
  - intros h outputs. unfold Store.postprocess.
    destruct (rbind _ np_array) as [a|e]; simpl; [| done].
    apply insert_subseteq, not_elem_of_dom, is_fresh.
  - exact preprocess_read.
  - exact postprocess_read.
  - intros h1 h2 x1 x2 t H1 H2.
    by rewrite (preprocess_read _ _ _ H1), (preprocess_read _ _ _ H2).
  - intros h1 h2 o1 o2 outs H1 H2.
    by rewrite (postprocess_read _ _ _ H1), (postprocess_read _ _ _ H2).
Qed.

(** ** More on the adapters: errors, shape, what is read *)

(** A comprehension raises the exception of one of its elements. *)
Lemma comprehension_Raise {A B} (f : A -> result B) (l : list A) (e : exn) :
  comprehension f l = Raise e -> exists a, a ∈ l /\ f a = Raise e.
Proof.
  induction l as [|a l IH]; simpl; [discriminate |].
  destruct (f a) as [b|e'] eqn:Ha; simpl.
  - destruct (comprehension f l) as [bs|e'] eqn:Hl; simpl; [discriminate |].
    intros [= ->]. destruct (IH eq_refl) as (a' & Hin & Ha').
    exists a'. split; [by right | exact Ha'].
  - intros [= ->]. exists a. split; [left | exact Ha].
Qed.

(** When its elements can raise one exception only, a comprehension with a
    raising element raises it. *)
Lemma comprehension_raises {A B} (f : A -> result B) (l : list A) (e : exn) :
  (forall a e', f a = Raise e' -> e' = e) ->
  (exists a, a ∈ l /\ f a = Raise e) ->
  comprehension f l = Raise e.
Proof.
  intros Honly (a & Hin & Ha).
  induction l as [|a' l IH]; [by apply elem_of_nil in Hin |]. simpl.
  destruct (f a') as [b|e'] eqn:Ha'; simpl; [| by rewrite (Honly a' e' Ha')].
  apply elem_of_cons in Hin as [-> | Hin]; [congruence |].
  by rewrite (IH Hin).
Qed.

(** Comprehensions over lists whose elements give the same results give
    the same result. *)
Lemma comprehension_ext {A A' B} (f : A -> result B) (g : A' -> result B)
    (l : list A) (l' : list A') :
  Forall2 (fun a a' => f a = g a') l l' -> comprehension f l = comprehension g l'.
Proof.
  induction 1 as [|a a' l l' Ha _ IH]; simpl; [done |]. by rewrite Ha, IH.
Qed.

Lemma getitem_Raise {V} (s : gmap string V) (key : string) (e : exn) :
  getitem s key = Raise e <-> s !! key = None /\ e = KeyError key.
Proof.
  unfold getitem. destruct (s !! key); split.
  - discriminate.
  - by intros [[=] _].
  - by intros [= <-].
  - by intros [_ ->].
Qed.

(** X1: postprocess raises KeyError("score") exactly when some record of
    the output has no "score" key. *)
Theorem postprocess_KeyError (outputs : list (list pydict)) :
  postprocess outputs = Raise (KeyError "score") <->
  exists ss s, ss ∈ outputs /\ s ∈ ss /\ s !! "score" = None.
Proof.
  unfold postprocess.
  set (row := fun ss : list pydict => comprehension (fun s : pydict => getitem s "score") ss).
  assert (Hrow : forall ss e, row ss = Raise e ->
                   e = KeyError "score" /\ exists s, s ∈ ss /\ s !! "score" = None).
  { intros ss e (s & Hin & [Hs ->]%getitem_Raise)%comprehension_Raise. eauto. }
  split.
  - destruct (comprehension row outputs) as [rows|e] eqn:Hrows; simpl.
    + unfold np_array. destruct (rectangular rows); discriminate.
    + intros [= ->]. apply comprehension_Raise in Hrows as (ss & Hin & Hss).
      destruct (Hrow ss _ Hss) as (_ & s & Hs & Hnone). eauto.
  - intros (ss & s & Hss & Hs & Hnone).
    rewrite (comprehension_raises row outputs (KeyError "score")); [done | |].
    + intros ss' e' He'. by destruct (Hrow ss' e' He').
    + exists ss. split; [exact Hss |]. apply comprehension_raises.
      * by intros s' e' [_ ->]%getitem_Raise.
      * exists s. split; [exact Hs |]. by apply getitem_Raise.
Qed.

(** X2: an array postprocess returns has one row for each sequence of the
    output, row i with one entry for each record of sequence i, and every
    record of the output had a "score" key. *)
Theorem postprocess_shape (outputs : list (list pydict)) (a : ndarray) :
  postprocess outputs = Ok a ->
  length (tolist a) = length outputs /\
  (forall i ss row,
     outputs !! i = Some ss -> tolist a !! i = Some row -> length row = length ss) /\
  (forall ss s, ss ∈ outputs -> s ∈ ss -> is_Some (s !! "score")).
Proof.
  unfold postprocess.
  destruct (comprehension _ outputs) as [rows|e] eqn:Hrows; simpl; [| discriminate].
  unfold np_array. destruct (rectangular rows); [| discriminate].
  intros [= <-]. simpl. apply comprehension_Ok in Hrows.
  split; [by rewrite (Forall2_length _ _ _ Hrows) |]. split.
  - intros i ss row Hss Hrow.
    destruct (Forall2_lookup_l _ _ _ _ _ Hrows Hss) as (row' & Hrow' & Hc).
    rewrite Hrow in Hrow'. injection Hrow' as <-.
    apply comprehension_Ok in Hc. by rewrite (Forall2_length _ _ _ Hc).
  - intros ss s [i Hi]%list_elem_of_lookup [j Hj]%list_elem_of_lookup.
    destruct (Forall2_lookup_l _ _ _ _ _ Hrows Hi) as (row & _ & Hc).
    apply comprehension_Ok in Hc.
    destruct (Forall2_lookup_l _ _ _ _ _ Hc Hj) as (v & _ & Hv).
    unfold getitem in Hv. destruct (s !! "score"); [by eexists | discriminate].
Qed.

(** X3: postprocess reads nothing but the "score" fields: two outputs whose
    records agree on "score", whatever their labels or other fields, get
    the same outcome. *)
Theorem postprocess_reads_scores_only (outputs outputs' : list (list pydict)) :
  Forall2 (Forall2 (fun s s' : pydict => s !! "score" = s' !! "score")) outputs outputs' ->
  postprocess outputs = postprocess outputs'.
Proof.
  intros H. unfold postprocess. f_equal.
  apply comprehension_ext. eapply Forall2_impl; [exact H |].
  intros ss ss' Hss. apply comprehension_ext.
  eapply Forall2_impl; [exact Hss |].
  intros s s' Hs. unfold getitem. by rewrite Hs.
Qed.

(** What a reference stands for stays what it is when the store grows. *)
Lemma read_list_mono {A} (rd rd' : Store.hval -> option A) (h h' : Store.heap)
    (v : Store.hval) (l : list A) :
  h ⊆ h' ->
  (forall x y, rd x = Some y -> rd' x = Some y) ->
  Store.read_list rd h v = Some l -> Store.read_list rd' h' v = Some l.
Proof.
  intros Hsub Hrd. unfold Store.read_list.
  destruct v as [|loc]; [done |].
  destruct (h !! loc) as [o|] eqn:Hloc; [| done].
  rewrite (lookup_weaken _ _ _ _ Hloc Hsub).
  destruct o as [| items | |]; try done.
  intros H. apply mapM_Some in H. apply mapM_Some.
  eapply Forall2_impl; [exact H |]. exact Hrd.
Qed.

Lemma read_dict_mono (h h' : Store.heap) (v : Store.hval) (d : pydict) :
  h ⊆ h' -> Store.read_dict h v = Some d -> Store.read_dict h' v = Some d.
Proof.
  intros Hsub. unfold Store.read_dict.
  destruct v as [|loc]; [done |].
  destruct (h !! loc) as [o|] eqn:Hloc; [| done].
  by rewrite (lookup_weaken _ _ _ _ Hloc Hsub).
Qed.

Lemma read_outputs_mono (h h' : Store.heap) (v : Store.hval)
    (outs : list (list pydict)) :
  h ⊆ h' -> Store.read_outputs h v = Some outs -> Store.read_outputs h' v = Some outs.
Proof.
  intros Hsub. unfold Store.read_outputs.
  apply read_list_mono; [exact Hsub |].
  intros x y. apply read_list_mono; [exact Hsub |].
  intros x' y'. by apply read_dict_mono.
Qed.

Lemma postprocess_extends (h : Store.heap) (v : Store.hval) :
  h ⊆ (Store.postprocess h v).2.
Proof.
  unfold Store.postprocess.
  destruct (rbind _ np_array) as [a|e]; simpl; [| done].
  apply insert_subseteq, not_elem_of_dom, is_fresh.
Qed.

(** X4: postprocess can be run again on what it was given.  In the store
    a run leaves, the argument stands for the same lists of records as
    before, the array of the run is a new object that was not in the store,
    and a second run on the same argument returns an array with the same
    contents. *)
Theorem postprocess_again (h : Store.heap) (v : Store.hval) (outs : list (list pydict)) :
  Store.read_outputs h v = Some outs ->
  Store.read_outputs (Store.postprocess h v).2 v = Some outs /\
  (forall l, (Store.postprocess h v).1 = Ok (Store.HRef l) -> h !! l = None) /\
  Store.read_result Store.read_array
    (Store.postprocess (Store.postprocess h v).2 v)
  = Store.read_result Store.read_array (Store.postprocess h v).
Proof.
  intros Hread.
  pose proof (read_outputs_mono _ _ _ _ (postprocess_extends h v) Hread) as Hread'.
  split; [exact Hread' |]. split.
  - unfold Store.postprocess. destruct (rbind _ np_array) as [a|e]; simpl; [| done].
    intros l [= <-]. apply not_elem_of_dom, is_fresh.
  - by rewrite (postprocess_read _ _ _ Hread'), (postprocess_read _ _ _ Hread).
Qed.

(** ** Facts about the script *)

Section NotebookFacts.

Context {Pipeline Explainer Explanation DashboardT World : Type}.
Variable handle :
  forall X, @extcall Pipeline Explainer Explanation DashboardT X -> World -> result X * World.

Local Abbreviation state' := (@state Pipeline Explainer Explanation DashboardT World).
Local Abbreviation program :=
  (list (label * @M Pipeline Explainer Explanation DashboardT World unit)).

Ltac unfold_statements :=
  unfold s_import_pio, s_renderer, s_import_numpy, s_import_transformers,
    s_import_Text, s_import_NLPExplainer, s_import_Dashboard, s_x, s_preprocess,
    s_model, s_postprocess, s_explainer, s_local_explanations, s_print_shap,
    s_plot_shap, s_print_lime, s_plot_lime, s_dashboard, s_show, plot, subscript,
    getitem in *;
  unfold bind, call, mark, load, store, ret, raise in *.

Ltac unfold_run :=
  unfold run, script, cells in *; unfold_statements;
  unfold concat, exec, init in *; unfold bind, mark, ret in *; cbn -[lookup] in *.

(** One step of a symbolic run: the answer of the next library call, or the
    outcome of the next dict lookup. *)
Ltac run_step :=
  match goal with
  | |- context [handle ?X ?c ?w] => destruct (handle X c w) as [[?|?] ?] eqn:?
  | |- context [@lookup _ _ _ _ ?k ?m] => destruct (@lookup _ _ _ _ k m) eqn:?
  end; cbn -[lookup] in *.

Lemma script_labels :
  (script handle).*1
  = [ L_import_pio; L_renderer; L_import_numpy; L_import_transformers; L_import_Text;
      L_import_NLPExplainer; L_import_Dashboard; L_x; L_preprocess; L_model;
      L_postprocess; L_explainer; L_local_explanations; L_print_shap; L_plot_shap;
      L_print_lime; L_plot_lime; L_dashboard; L_show ].
Proof. reflexivity. Qed.

(** A run that ends normally made these calls, with these answers, and
    bound these names. *)
Lemma run_ok (w : World) (s : state') :
  run handle w = (Ok tt, s) ->
  exists x m fac le e1 e2 d w',
    le !! "shap" = Some e1 /\ le !! "lime" = Some e2 /\
    ns s = Namespace (Some x) (Some preprocess) (Some m)
                     (Some postprocess) (Some fac) (Some le) (Some d) /\
    world s = w' /\
    calls s =
      [ Event (import_module "plotly.io") (Ok tt);
        Event (set_renderers_default "png") (Ok tt);
        Event (import_module "numpy") (Ok tt);
        Event (import_module "transformers") (Ok tt);
        Event (import_module "omnixai.data.text") (Ok tt);
        Event (import_module "omnixai.explainers.nlp") (Ok tt);
        Event (import_module "omnixai.visualization.dashboard") (Ok tt);
        Event (Text sentences) (Ok x);
        Event (transformers_pipeline
                 [VStr "sentiment-analysis"]
                 [("model", VStr "distilbert-base-uncased-finetuned-sst-2-english");
                  ("return_all_scores", VBool true)]) (Ok m);
        Event (NLPExplainer
                 []
                 [("explainers", VStrList ["shap"; "lime"]);
                  ("mode", VStr "classification");
                  ("model", VPipeline m);
                  ("preprocess", VPreprocess preprocess);
                  ("postprocess", VPostprocess postprocess)]) (Ok fac);
        Event (explain fac x) (Ok le);
        Event (print "SHAP results:") (Ok tt);
        Event (ipython_plot e1) (Ok tt);
        Event (print "LIME results:") (Ok tt);
        Event (ipython_plot e2) (Ok tt);
        Event (Dashboard
                 []
                 [("instances", VText x);
                  ("local_explanations", VExplanations le)]) (Ok d);
        Event (show d) (Ok tt) ].
Proof.
  unfold_run. repeat (run_step; try discriminate).
  intros [= <-]. simpl.
  repeat match goal with u : unit |- _ => destruct u end.
  do 8 eexists. repeat split; eassumption.
Qed.

(** Every statement of the notebook is atomic. *)
Lemma script_atomic : Forall (fun st => atomic st.2) (script handle).
Proof.
  unfold script, cells. simpl.
  repeat (apply Forall_cons; split; [
    simpl; intros s r s'; unfold_statements;
    repeat match goal with
           | |- context [handle ?X ?c ?w] => destruct (handle X c w) as [[?|?] ?]
           | |- context [@lookup _ _ _ _ ?k ?m] => destruct (@lookup _ _ _ _ k m)
           | |- context [match ?f (ns s) with _ => _ end] => destruct (f (ns s))
           end;
    intros [= <- <-]; simpl; (split; [reflexivity |]);
    first
      [ exists []; rewrite app_nil_r; split; [reflexivity |];
        first [ by constructor | by (split; [reflexivity | left]) ]
      | eexists [_]; split; [reflexivity |];
        first [ by repeat constructor
              | split; [reflexivity | right; by do 2 eexists] ] ] | ]).
  by apply Forall_nil.
Qed.

(** What a run of atomic statements leaves behind.  A normal end: every
    call returned and every statement ran.  An exception: it is the
    exception of some statement [k], all statements before it ended
    normally, none after it ran, the names are bound as the statements
    before [k] left them, and at most the last call raised. *)
Lemma exec_outcome (p : program) :
  Forall (fun st => atomic st.2) p ->
  forall (s0 : state') r s,
    exec p s0 = (r, s) ->
    exists new,
      calls s = calls s0 ++ new /\
      match r with
      | Ok _ => Forall returned new /\ executed s = executed s0 ++ p.*1
      | Raise e =>
          exists k l body s1 old,
            p !! k = Some (l, body) /\
            exec (take k p) s0 = (Ok tt, s1) /\
            executed s = executed s0 ++ (take (S k) p).*1 /\
            ns s = ns s1 /\
            calls s1 = calls s0 ++ old /\
            Forall returned old /\
            (new = old \/
             exists X (c : @extcall _ _ _ _ X), new = old ++ [Event c (Raise e)])
      end.
Proof.
  induction 1 as [|[l body] p Hat _ IH]; intros s0 r s Hexec.
  - injection Hexec as <- <-. exists []. rewrite !app_nil_r.
    split; [reflexivity |]. by split; [constructor |].
  - simpl in Hexec. unfold bind at 1 2 in Hexec. simpl in Hexec.
    destruct (body _) as [[u|e] sb] eqn:Hbody;
      destruct (Hat _ _ _ Hbody) as (Hexe & new1 & Hcalls & Hnew1); simpl in *.
    + destruct (IH sb r s Hexec) as (new2 & Hcalls2 & Hrest).
      exists (new1 ++ new2). split; [by rewrite Hcalls2, Hcalls, app_assoc |].
      destruct r as [u'|e].
      * destruct Hrest as [Hnew2 ->]. split; [by apply Forall_app |].
        by rewrite Hexe, <- app_assoc.
      * destruct Hrest
          as (k & l' & body' & s1 & old & Hk & Hpre & Hexe' & Hns & Hold & Hret & Hlast).
        exists (S k), l', body', s1, (new1 ++ old). split; [exact Hk |]. split.
        { simpl. unfold bind at 1 2. simpl. by rewrite Hbody. }
        split; [by rewrite Hexe', Hexe, <- app_assoc |].
        split; [exact Hns |].
        split; [by rewrite Hold, Hcalls, app_assoc |].
        split; [by apply Forall_app |].
        destruct Hlast as [-> | (X & c & ->)]; [by left | right].
        exists X, c. by rewrite app_assoc.
    + injection Hexec as <- <-. destruct Hnew1 as [Hns Hnew1].
      exists new1. split; [exact Hcalls |].
      exists 0, l, body, s0, []. rewrite app_nil_r.
      split; [reflexivity |]. split; [reflexivity |].
      split; [exact Hexe |]. split; [exact Hns |].
      split; [reflexivity |]. split; [constructor |].
      destruct Hnew1 as [-> | (X & c & ->)]; [by left | right; by exists X, c].
Qed.

Lemma returned_not_raised (ev : @event Pipeline Explainer Explanation DashboardT)
    (l : list (@event Pipeline Explainer Explanation DashboardT)) (e : exn) :
  Forall returned l -> ev ∈ l -> event_exn ev = Some e -> False.
Proof.
  intros Hall Hin He. rewrite Forall_forall in Hall.
  specialize (Hall ev Hin). unfold returned in Hall. congruence.
Qed.

(** C9: the script handles no error.  When a library call of a run raises,
    the run ends with that very exception, the raising call is the last
    call made, the statements executed are those up to the one that made
    it and none after, and the names are bound as the statements before it
    left them. *)
Theorem error_propagates (w : World)
    (ev : @event Pipeline Explainer Explanation DashboardT) (e : exn) :
  ev ∈ calls (run handle w).2 ->
  event_exn ev = Some e ->
  (run handle w).1 = Raise e /\
  (exists pre, calls (run handle w).2 = pre ++ [ev] /\ Forall returned pre) /\
  exists k l body s1,
    script handle !! k = Some (l, body) /\
    exec (take k (script handle)) (init w) = (Ok tt, s1) /\
    executed (run handle w).2 = (take (S k) (script handle)).*1 /\
    ns (run handle w).2 = ns s1.
Proof.
  unfold run. destruct (exec (script handle) (init w)) as [r s] eqn:Hrun. simpl.
  intros Hin He.
  destruct (exec_outcome _ script_atomic _ _ _ Hrun) as (new & Hcalls & Hrest).
  simpl in Hcalls. rewrite Hcalls in *. clear Hcalls.
  destruct r as [u|e'].
  { destruct Hrest as [Hret _]. destruct (returned_not_raised _ _ _ Hret Hin He). }
  destruct Hrest as (k & l & body & s1 & old & Hk & Hpre & Hexe & Hns & _ & Hret & Hlast).
  destruct Hlast as [-> | (X & c & ->)].
  { destruct (returned_not_raised _ _ _ Hret Hin He). }
  apply elem_of_app in Hin as [Hin | Hin%list_elem_of_singleton].
  { destruct (returned_not_raised _ _ _ Hret Hin He). }
  subst ev. simpl in He. injection He as <-.
  split; [reflexivity |]. split; [by exists old |].
  by exists k, l, body, s1.
Qed.

Lemma steps_of_prefix (n : nat) : steps (take n (script handle).*1) `prefix_of` flow.
Proof.
  rewrite script_labels.
  do 19 (destruct n as [|n]; [vm_compute; by eexists |]).
  simpl. rewrite take_nil. vm_compute. by eexists.
Qed.

(** The statements run in the order of the file, and the steps they are
    labelled with are the first steps of the flow. *)
Lemma statements_in_order (w : World) :
  executed (run handle w).2 `prefix_of` (script handle).*1 /\
  steps (executed (run handle w).2) `prefix_of` flow /\
  ((run handle w).1 = Ok tt ->
   executed (run handle w).2 = (script handle).*1 /\
   steps (executed (run handle w).2) = flow).
Proof.
  unfold run. destruct (exec (script handle) (init w)) as [r s] eqn:Hrun.
  cbn [fst snd].
  destruct (exec_outcome _ script_atomic _ _ _ Hrun) as (new & _ & Hrest).
  destruct r as [u|e].
  - destruct Hrest as [_ Hexe]. cbn [init executed app] in Hexe. rewrite Hexe.
    split; [done |]. split; [| done].
    exact (steps_of_prefix 19).
  - destruct Hrest as (k & l & body & s1 & old & _ & _ & Hexe & _).
    cbn [init executed app] in Hexe. rewrite Hexe, fmap_take.
    split; [apply prefix_take |]. split; [apply steps_of_prefix | discriminate].
Qed.

(** Whatever the libraries answer, the steps the calls of a run carry out
    are the first steps of the flow, and no call carries out a step before
    a statement of that step runs. *)
Lemma calls_in_order (w : World) r s :
  run handle w = (r, s) ->
  call_steps (calls s) `prefix_of` flow /\
  call_steps (calls s) `prefix_of` steps (executed s).
Proof.
  unfold_run. repeat run_step.
  all: intros [= <- <-]; split; by eexists.
Qed.

(** C4: the script goes through exactly the five steps, in order, none
    skipped.  In every run the statements execute in file order, and both
    the steps of the statements executed and the steps the library calls
    carry out are the first steps of the flow, without repetition, no call
    coming before its statement.  A run that ends normally has executed
    every statement and carried out all five steps, by exactly these calls
    in this order: (1) [Text] on the two sentences, giving [x]; (2)
    [transformers.pipeline], giving [model], with the two lambdas bound
    beside it; (3) [NLPExplainer] on the method names, the mode, [model]
    and the two lambdas, giving [explainer]; (4) [explain] of that facade
    on [x], giving [local_explanations]; (5) [Dashboard] on [x] and these
    explanations, and [show] of the dashboard it gave. *)
Theorem five_steps_in_order (w : World) :
  executed (run handle w).2 `prefix_of` (script handle).*1 /\
  steps (executed (run handle w).2) `prefix_of` flow /\
  call_steps (calls (run handle w).2) `prefix_of` flow /\
  call_steps (calls (run handle w).2) `prefix_of` steps (executed (run handle w).2) /\
  ((run handle w).1 = Ok tt ->
   executed (run handle w).2 = (script handle).*1 /\
   steps (executed (run handle w).2) = flow /\
   call_steps (calls (run handle w).2) = flow /\
   exists x m fac le d,
     flow_calls (calls (run handle w).2)
     = [ Event (Text sentences) (Ok x);
         Event (transformers_pipeline
                  [VStr "sentiment-analysis"]
                  [("model", VStr "distilbert-base-uncased-finetuned-sst-2-english");
                   ("return_all_scores", VBool true)]) (Ok m);
         Event (NLPExplainer
                  []
                  [("explainers", VStrList ["shap"; "lime"]);
                   ("mode", VStr "classification");
                   ("model", VPipeline m);
                   ("preprocess", VPreprocess preprocess);
                   ("postprocess", VPostprocess postprocess)]) (Ok fac);
         Event (explain fac x) (Ok le);
         Event (Dashboard
                  []
                  [("instances", VText x);
                   ("local_explanations", VExplanations le)]) (Ok d);
         Event (show d) (Ok tt) ] /\
     ns (run handle w).2
     = Namespace (Some x) (Some preprocess) (Some m) (Some postprocess)
                 (Some fac) (Some le) (Some d)).
Proof.
  destruct (statements_in_order w) as (Hexe & Hsteps & Hnormal).
  destruct (run handle w) as [r s] eqn:Hrun. cbn [fst snd] in *.
  destruct (calls_in_order w r s Hrun) as [Hflow Hbefore].
  split; [exact Hexe |]. split; [exact Hsteps |].
  split; [exact Hflow |]. split; [exact Hbefore |].
  intros ->. destruct (Hnormal eq_refl) as [Hall Hfive].
  split; [exact Hall |]. split; [exact Hfive |].
  destruct (run_ok w s Hrun)
    as (x & m & fac & le & e1 & e2 & d & w' & _ & _ & Hns & _ & Hcalls).
  rewrite Hcalls, Hns. split; [reflexivity |].
  by exists x, m, fac, le, d.
Qed.

(** C5: the facade is configured with exactly five parameters.  Every
    construction of the facade in a run has no positional argument and
    the five keyword arguments explainers, mode, model, preprocess and
    postprocess, bound to ["shap", "lime"], "classification", the pipeline
    the notebook built and its two lambdas; a run that ends normally
    constructs the facade exactly once. *)
Theorem facade_configuration (w : World) :
  (forall args kwargs,
     (args, kwargs) ∈ omap facade_call (calls (run handle w).2) ->
     args = [] /\
     exists m,
       kwargs = [ ("explainers", VStrList ["shap"; "lime"]);
                  ("mode", VStr "classification");
                  ("model", VPipeline m);
                  ("preprocess", VPreprocess preprocess);
                  ("postprocess", VPostprocess postprocess) ] /\
       omap pipeline_made (calls (run handle w).2) = [m]) /\
  ((run handle w).1 = Ok tt ->
   length (omap facade_call (calls (run handle w).2)) = 1).
Proof.
  unfold_run. repeat run_step.
  all: split; [| first [discriminate | reflexivity]].
  all: intros args kwargs Hin.
  all: first [ by apply elem_of_nil in Hin
             | apply list_elem_of_singleton in Hin; injection Hin as -> ->;
               split; [reflexivity |]; by eexists ].
Qed.

(** C6: after explanation generation each explanation of the returned
    mapping is rendered.  In a run that ends normally there is one
    [explain] call; before it nothing is rendered; after it
    [ipython_plot] is called exactly twice, once on the explanation under
    each configured name, "shap" and then "lime". *)
Theorem explanations_rendered_once (w : World) (s : state') :
  run handle w = (Ok tt, s) ->
  exists fac x le pre post kwargs,
    calls s = pre ++ Event (explain fac x) (Ok le) :: post /\
    omap explain_call (calls s) = [(fac, x)] /\
    omap plotted pre = [] /\
    omap facade_call pre = [([], kwargs)] /\
    kwarg "explainers" kwargs = Some (VStrList ["shap"; "lime"]) /\
    mapM (fun name : string => le !! name) ["shap"; "lime"] = Some (omap plotted post).
Proof.
  intros Hrun.
  destruct (run_ok w s Hrun)
    as (x & m & fac & le & e1 & e2 & d & w' & H1 & H2 & _ & _ & Hcalls).
  exists fac, x, le. eexists (take 10 (calls s)), (drop 11 (calls s)), _.
  rewrite Hcalls. cbn -[lookup]. rewrite H1. cbn -[lookup]. rewrite H2.
  repeat split; reflexivity.
Qed.

(** C7: the dashboard is constructed from exactly the input data and the
    generated explanations and is then started.  The last two calls of a
    run that ends normally are the construction of the dashboard, with
    instances bound to [x], the batch the [Text] call returned, and
    local_explanations bound to the mapping that [explain] returned on
    [x], and no other argument, and then [show] on the dashboard just
    constructed; no dashboard is constructed or shown before. *)
Theorem dashboard_on_input_and_explanations (w : World) (s : state') :
  run handle w = (Ok tt, s) ->
  exists x fac le d pre,
    calls s = pre ++ [ Event (Dashboard
                                []
                                [("instances", VText x);
                                 ("local_explanations", VExplanations le)]) (Ok d);
                       Event (show d) (Ok tt) ] /\
    omap dashboard_call pre = [] /\
    omap shown pre = [] /\
    ns_x (ns s) = Some x /\
    Event (Text sentences) (Ok x) ∈ pre /\
    ns_local_explanations (ns s) = Some le /\
    Event (explain fac x) (Ok le) ∈ pre /\
    omap explain_call pre = [(fac, x)] /\
    ns_dashboard (ns s) = Some d.
Proof.
  intros Hrun.
  destruct (run_ok w s Hrun)
    as (x & m & fac & le & e1 & e2 & d & w' & _ & _ & Hns & _ & Hcalls).
  exists x, fac, le, d. eexists (take 15 (calls s)).
  rewrite Hcalls, Hns. cbn.
  repeat split; try reflexivity.
  - do 7 apply list_elem_of_further. apply list_elem_of_here.
  - do 10 apply list_elem_of_further. apply list_elem_of_here.
Qed.

(** Whatever the libraries answer, a run calls [explain] at most once and
    [show] at most once. *)
Lemma explain_and_show_once (w : World) :
  length (omap explain_call (calls (run handle w).2)) <= 1 /\
  length (omap shown (calls (run handle w).2)) <= 1.
Proof.
  unfold_run. repeat run_step. all: split; simpl; lia.
Qed.

(** The calls of a run were answered by the handler, one after the other,
    and took the libraries to the state the run ends in. *)
Lemma run_threads (w : World) :
  threads handle (calls (run handle w).2) w (world (run handle w).2).
Proof.
  unfold_run. repeat run_step.
  all: cbn [threads]; repeat (eexists; split; [eassumption |]); reflexivity.
Qed.

(** X5: the ways a run fails.  A run that raises either raises the
    exception of the library call it made last, or raises KeyError("shap")
    or KeyError("lime") because the mapping [explain] returned has no such
    key; the script raises nothing else on its own, in particular no name
    is read before it is bound. *)
Theorem run_raises (w : World) (e : exn) :
  (run handle w).1 = Raise e ->
  (exists ev, last (calls (run handle w).2) = Some ev /\ event_exn ev = Some e) \/
  (exists le name,
     omap explained (calls (run handle w).2) = [le] /\
     (name = "shap" \/ name = "lime") /\
     le !! name = None /\
     e = KeyError name).
Proof.
  unfold_run. repeat run_step.
  all: intros He; first [discriminate He | injection He as <-].
  all: first
         [ left; eexists; split; reflexivity
         | right; eexists _, "shap";
           split; [reflexivity |]; split; [by left |]; split; [eassumption | reflexivity]
         | right; eexists _, "lime";
           split; [reflexivity |]; split; [by right |]; split; [eassumption | reflexivity] ].
Qed.

(** X6: every method call is made on what the notebook itself built.  In
    any run, [explain] is called on the facade the NLPExplainer call
    returned and on the batch the Text call returned for the two
    sentences, [ipython_plot] only on values of the mapping [explain]
    returned, and [show] on the dashboard the Dashboard call returned. *)
Theorem calls_on_what_was_made (w : World) :
  (forall fac x,
     (fac, x) ∈ omap explain_call (calls (run handle w).2) ->
     omap facade_made (calls (run handle w).2) = [fac] /\
     omap text_made (calls (run handle w).2) = [(sentences, x)]) /\
  (forall e,
     e ∈ omap plotted (calls (run handle w).2) ->
     exists le name,
       omap explained (calls (run handle w).2) = [le] /\ le !! name = Some e) /\
  (forall d,
     d ∈ omap shown (calls (run handle w).2) ->
     omap dashboard_made (calls (run handle w).2) = [d]).
Proof.
  unfold_run. repeat run_step.
  all: split; [| split]; intros;
    repeat match goal with
           | H : _ ∈ [] |- _ => by apply elem_of_nil in H
           | H : _ ∈ _ :: _ |- _ => apply elem_of_cons in H as [H | H]
           end;
    simplify_eq; eauto.
Qed.

(** X7: a mapping without "shap" or "lime".  When the mapping [explain]
    returned has no "shap" key nothing is rendered, and when it has no
    "lime" key at most one explanation is; in both cases no dashboard is
    constructed and the run does not end normally. *)
Theorem missing_explanation (w : World) (le : gmap string Explanation) :
  le ∈ omap explained (calls (run handle w).2) ->
  (le !! "shap" = None ->
   omap plotted (calls (run handle w).2) = [] /\
   omap dashboard_call (calls (run handle w).2) = [] /\
   (run handle w).1 <> Ok tt) /\
  (le !! "lime" = None ->
   length (omap plotted (calls (run handle w).2)) <= 1 /\
   omap dashboard_call (calls (run handle w).2) = [] /\
   (run handle w).1 <> Ok tt).
Proof.
  unfold_run. repeat run_step.
  all: intros Hin;
    first [ by apply elem_of_nil in Hin
          | apply list_elem_of_singleton in Hin; subst le ].
  all: split; intros Hnone;
    first [ congruence
          | split; [first [reflexivity | simpl; lia] |]; split; [reflexivity | discriminate] ].
Qed.

(** X8: what a run leaves bound.  Whether it ends normally or not, every
    name a run has bound holds what the notebook assigned to it: the two
    lambdas, and for [x], [model], [explainer], [local_explanations] and
    [dashboard] the answer of the one call that made it. *)
Theorem bound_names (w : World) :
  (forall f, ns_preprocess (ns (run handle w).2) = Some f -> f = preprocess) /\
  (forall f, ns_postprocess (ns (run handle w).2) = Some f -> f = postprocess) /\
  (forall x, ns_x (ns (run handle w).2) = Some x ->
     omap text_made (calls (run handle w).2) = [(sentences, x)]) /\
  (forall m, ns_model (ns (run handle w).2) = Some m ->
     omap pipeline_made (calls (run handle w).2) = [m]) /\
  (forall fac, ns_explainer (ns (run handle w).2) = Some fac ->
     omap facade_made (calls (run handle w).2) = [fac]) /\
  (forall le, ns_local_explanations (ns (run handle w).2) = Some le ->
     omap explained (calls (run handle w).2) = [le]) /\
  (forall d, ns_dashboard (ns (run handle w).2) = Some d ->
     omap dashboard_made (calls (run handle w).2) = [d]).
Proof.
  unfold_run. repeat run_step.
  all: repeat split; intros; simplify_eq; reflexivity.
Qed.

End NotebookFacts.

(** ** Facts about the notebook on the library of the specification *)

Section LibraryFacts.

Variables (Pipeline Explanation Env : Type).
Variable pipeline_call : Pipeline -> list string -> result (list (list pydict)).
Variable engine : string -> (text -> result ndarray) -> text -> result Explanation.
Variable serve : text -> gmap string Explanation -> result unit.
Variable other :
  forall X,
    @extcall Pipeline (Omnixai.facade Pipeline) Explanation
             (Omnixai.dashboard Explanation) X ->
    Env -> result X * Env.

Local Abbreviation lib_handle :=
  (Omnixai.handle Pipeline Explanation Env pipeline_call engine serve other).
Local Abbreviation lib_dispatch := (Omnixai.dispatch Explanation engine).

(** When every engine asked answers, the dispatch returns a mapping whose
    keys are the names asked besides those it started from, each name
    bound to the explanation of its engine, and every engine was asked
    once per occurrence of its name, in order. *)
Lemma dispatch_ok (f : text -> result ndarray) (x : text) (names : list string) :
  (forall name, name ∈ names -> exists e, engine name f x = Ok e) ->
  forall acc log,
  exists le,
    lib_dispatch f x names acc log = (Ok le, log ++ (Omnixai.EngineRun <$> names)) /\
    dom le = list_to_set names ∪ dom acc /\
    (forall name e, name ∈ names -> engine name f x = Ok e -> le !! name = Some e) /\
    (forall name, name ∉ names -> le !! name = acc !! name).
Proof.
  induction names as [|n names IH]; intros Hall acc log.
  - exists acc. simpl. rewrite app_nil_r. split; [reflexivity |].
    split; [by rewrite (left_id_L ∅ (∪)) |]. split; [| done].
    intros name e Hin. by apply elem_of_nil in Hin.
  - destruct (Hall n) as [e He]; [left |].
    destruct (IH (fun name Hin => Hall name (list_elem_of_further _ _ _ Hin))
                 (<[n := e]> acc) (log ++ [Omnixai.EngineRun n]))
      as (le & Hrun & Hdom & Hin & Hout).
    exists le. simpl. rewrite He, Hrun, <- app_assoc.
    split; [reflexivity |]. split; [| split].
    + rewrite Hdom, dom_insert_L. simpl.
      by rewrite (comm_L (∪) {[n]} (list_to_set names)), (assoc_L (∪)).
    + intros name e' Hname He'.
      destruct (decide (name ∈ names)) as [Hn | Hn]; [by apply Hin |].
      apply elem_of_cons in Hname as [-> | Hname]; [| done].
      rewrite (Hout n Hn), lookup_insert_eq. congruence.
    + intros name Hname. apply not_elem_of_cons in Hname as [Hne Hname].
      by rewrite (Hout name Hname), lookup_insert_ne.
Qed.

(** C2: for every sequence of strings L, constructing the text batch from L
    and preprocessing it gives back L: the Text call returns a batch, and
    preprocess recovers from it exactly the strings it was made of. *)
Theorem preprocess_Text (L : list string) (w : Omnixai.world Env) :
  exists x, (lib_handle _ (Text L) w).1 = Ok x /\ preprocess x = L.
Proof. exists (TextBatch L). split; reflexivity. Qed.

(** C1: explain on the facade configured with ["shap", "lime"] returns a
    mapping from method name to explanation object: when the two engines
    answer, the call returns a mapping whose keys are exactly "shap" and
    "lime", each bound to the explanation its engine made; and each value
    has the rendering operation: the rendering statement of the notebook,
    run where the mapping is bound, calls [ipython_plot] on it. *)
Theorem explain_returns_mapping (fa : Omnixai.facade Pipeline) (x : text)
    (w : Omnixai.world Env) :
  Omnixai.explainers _ fa = ["shap"; "lime"] ->
  (forall name, name ∈ ["shap"; "lime"] ->
     exists e, engine name (Omnixai.predict_function _ pipeline_call fa) x = Ok e) ->
  exists le : gmap string Explanation,
    (lib_handle _ (explain fa x) w).1 = Ok le /\
    dom le = {[ "shap"; "lime" ]} /\
    (forall name, name ∈ ["shap"; "lime"] ->
       exists e,
         le !! name = Some e /\
         engine name (Omnixai.predict_function _ pipeline_call fa) x = Ok e /\
         forall s,
           ns_local_explanations (ns s) = Some le ->
           calls (plot lib_handle name s).2
           = calls s ++ [Event (ipython_plot e)
                               (lib_handle _ (ipython_plot e) (world s)).1]).
Proof.
  intros Hnames Hall.
  destruct (dispatch_ok _ x ["shap"; "lime"] Hall ∅ w.2) as (le & Hrun & Hdom & Hin & _).
  exists le. simpl. rewrite Hnames, Hrun. simpl.
  split; [reflexivity |]. split.
  - rewrite Hdom, dom_empty_L. simpl. by rewrite !(right_id_L ∅ (∪)).
  - intros name Hname. destruct (Hall name Hname) as [e He].
    exists e. split; [by apply Hin |]. split; [exact He |].
    intros s Hle. unfold plot, load, subscript, getitem, bind, call, ret.
    rewrite Hle, (Hin name e Hname He). simpl.
    by destruct (other _ _ _).
Qed.

Lemma dispatch_log (f : text -> result ndarray) (x : text) (names : list string) :
  forall acc log le log',
    lib_dispatch f x names acc log = (Ok le, log') ->
    log' = log ++ (Omnixai.EngineRun <$> names).
Proof.
  induction names as [|n names IH]; intros acc log le log'; simpl.
  - intros [= _ <-]. by rewrite app_nil_r.
  - destruct (engine n f x) as [e|err]; [| discriminate].
    intros H. apply IH in H. by rewrite H, <- app_assoc.
Qed.

(** A call that returns has asked what [asks] says, and nothing else. *)
Lemma handle_asks X (c : @extcall _ _ _ _ X) (w w' : Omnixai.world Env) (a : X) :
  lib_handle X c w = (Ok a, w') ->
  Omnixai.accesses _ w' = Omnixai.accesses _ w ++ Omnixai.asks _ _ c.
Proof.
  destruct w as [env log]. unfold Omnixai.accesses.
  destruct c; simpl;
    try (destruct (other _ _ env) as [r env']; intros [= _ <-]; simpl;
         by rewrite app_nil_r);
    try (intros [= _ <-]; simpl; by rewrite ?app_nil_r).
  destruct (lib_dispatch _ _ _ _ _) as [r log'] eqn:Hrun.
  intros [= -> <-]. simpl. by apply dispatch_log in Hrun.
Qed.

(** C8: the engines and the dashboard server are reached only through
    [explainer.explain(x)] and [dashboard.show()].  No other call of the
    library adds to what the engines and the server were asked; a run
    makes each of the two calls at most once; and a run that ends
    normally has made each once and has asked the engines for "shap" and
    "lime" and then started the server, and nothing else. *)
Theorem collaborators_reached_by_explain_and_show :
  (forall X (c : @extcall _ _ _ _ X) (w : Omnixai.world Env),
     Omnixai.accesses _ (lib_handle X c w).2 <> Omnixai.accesses _ w ->
     is_Some (explain_call (Event c (lib_handle X c w).1)) \/
     is_Some (shown (Event c (lib_handle X c w).1))) /\
  (forall w,
     length (omap explain_call (calls (run lib_handle w).2)) <= 1 /\
     length (omap shown (calls (run lib_handle w).2)) <= 1) /\
  (forall w,
     (run lib_handle w).1 = Ok tt ->
     length (omap explain_call (calls (run lib_handle w).2)) = 1 /\
     length (omap shown (calls (run lib_handle w).2)) = 1 /\
     Omnixai.accesses _ (world (run lib_handle w).2)
     = Omnixai.accesses _ w
       ++ [Omnixai.EngineRun "shap"; Omnixai.EngineRun "lime"; Omnixai.ServerStart]).
Proof.
  split; [| split].
  - intros X c [env log] Hne.
    destruct c; simpl in *;
      try (destruct (other _ _ env) as [r env']; simpl in Hne);
      try (by destruct Hne); [left | right]; by eexists.
  - intros w. apply explain_and_show_once.
  - intros w Hok.
    pose proof (run_threads lib_handle w) as Hthreads.
    destruct (run lib_handle w) as [r s] eqn:Hrun. simpl in Hok. subst r.
    destruct (run_ok _ _ _ Hrun)
      as (x & m & fac & le & e1 & e2 & d & w' & _ & _ & _ & _ & Hcalls).
    cbn [snd] in *. rewrite Hcalls in *. clear Hcalls.
    split; [reflexivity |]. split; [reflexivity |].
    cbn [threads] in Hthreads.
    repeat match goal with
           | H : exists _, _ |- _ => destruct H as (? & ? & ?)
           end.
    subst.
    match goal with
    | H : lib_handle _ (NLPExplainer _ _) _ = _ |- _ =>
        simpl in H; injection H as <- <-
    end.
    repeat match goal with
           | H : lib_handle _ _ _ = (Ok _, _) |- _ =>
               apply handle_asks in H; simpl in H; rewrite ?app_nil_r in H
           end.
    repeat match goal with
           | H : Omnixai.accesses _ _ = _ |- _ => rewrite H; clear H
           end.
    by rewrite <- app_assoc.
Qed.

End LibraryFacts.

(** ** The notebook on the sample library *)

(** On the sample library, with no failing engine, the notebook runs to
    its end. *)
Example run_sample_ok : (run (Sample.handle []) Sample.start).1 = Ok tt.
Proof. vm_compute. reflexivity. Qed.

Lemma explain_returns_mapping_witness :
  exists le : gmap string string,
    (Sample.handle [] _
       (explain (Omnixai.Facade unit ["shap"; "lime"] "classification" tt
                   preprocess postprocess)
                (TextBatch sentences))
       Sample.start).1 = Ok le /\
    dom le = {[ "shap"; "lime" ]}.
Proof.
  destruct (explain_returns_mapping unit string unit Sample.pipeline_call (Sample.engine [])
              Sample.serve Sample.other
              (Omnixai.Facade unit ["shap"; "lime"] "classification" tt
                 preprocess postprocess)
              (TextBatch sentences) Sample.start)
    as (le & Hle & Hdom & _).
  - reflexivity.
  - intros name [-> | [-> | []%elem_of_nil]%elem_of_cons]%elem_of_cons;
      eexists; vm_compute; reflexivity.
  - exists le. split; [exact Hle | exact Hdom].
Defined.

Lemma five_steps_in_order_witness :
  steps (executed (run (Sample.handle []) Sample.start).2) = flow /\
  call_steps (calls (run (Sample.handle []) Sample.start).2) = flow /\
  length (flow_calls (calls (run (Sample.handle []) Sample.start).2)) = 6.
Proof.
  assert (Hok : (run (Sample.handle []) Sample.start).1 = Ok tt)
    by (vm_compute; reflexivity).
  destruct (proj2 (proj2 (proj2 (proj2
              (five_steps_in_order (Sample.handle []) Sample.start)))) Hok)
    as (_ & Hsteps & Hcalls & x & m & fac & le & d & Hflow & _).
  split; [exact Hsteps |]. split; [exact Hcalls |].
  rewrite Hflow. reflexivity.
Defined.

Lemma facade_configuration_witness :
  length (omap facade_call (calls (run (Sample.handle []) Sample.start).2)) = 1.
Proof.
  assert (Hok : (run (Sample.handle []) Sample.start).1 = Ok tt)
    by (vm_compute; reflexivity).
  exact (proj2 (facade_configuration (Sample.handle []) Sample.start) Hok).
Defined.

Lemma explanations_rendered_once_witness :
  exists fac x le pre post kwargs,
    calls (run (Sample.handle []) Sample.start).2
    = pre ++ Event (explain fac x) (Ok le) :: post /\
    omap explain_call (calls (run (Sample.handle []) Sample.start).2) = [(fac, x)] /\
    omap plotted pre = [] /\
    omap facade_call pre = [([], kwargs)] /\
    kwarg "explainers" kwargs = Some (VStrList ["shap"; "lime"]) /\
    mapM (fun name : string => le !! name) ["shap"; "lime"] = Some (omap plotted post).
Proof.
  apply (explanations_rendered_once (Sample.handle []) Sample.start).
  vm_compute. reflexivity.
Defined.

Lemma dashboard_on_input_and_explanations_witness :
  exists x fac le d pre,
    calls (run (Sample.handle []) Sample.start).2
    = pre ++ [ Event (Dashboard
                        []
                        [("instances", VText x);
                         ("local_explanations", VExplanations le)]) (Ok d);
               Event (show d) (Ok tt) ] /\
    omap dashboard_call pre = [] /\
    omap shown pre = [] /\
    ns_x (ns (run (Sample.handle []) Sample.start).2) = Some x /\
    Event (Text sentences) (Ok x) ∈ pre /\
    ns_local_explanations (ns (run (Sample.handle []) Sample.start).2) = Some le /\
    Event (explain fac x) (Ok le) ∈ pre /\
    omap explain_call pre = [(fac, x)] /\
    ns_dashboard (ns (run (Sample.handle []) Sample.start).2) = Some d.
Proof.
  apply (dashboard_on_input_and_explanations (Sample.handle []) Sample.start).
  vm_compute. reflexivity.
Defined.

Lemma collaborators_reached_by_explain_and_show_witness :
  Omnixai.accesses _ (world (run (Sample.handle []) Sample.start).2)
  = [Omnixai.EngineRun "shap"; Omnixai.EngineRun "lime"; Omnixai.ServerStart].
Proof.
  assert (Hok : (run (Sample.handle []) Sample.start).1 = Ok tt)
    by (vm_compute; reflexivity).
  exact (proj2 (proj2 (proj2 (proj2
           (collaborators_reached_by_explain_and_show unit string unit
              Sample.pipeline_call (Sample.engine []) Sample.serve Sample.other))
           Sample.start Hok))).
Defined.

Lemma error_propagates_witness :
  (run (Sample.handle ["lime"]) Sample.start).1 = Raise (Exn "RuntimeError" "lime").
Proof.
  refine (proj1 (error_propagates (Sample.handle ["lime"]) Sample.start
                   (Event (explain (Omnixai.Facade unit ["shap"; "lime"] "classification"
                                      tt preprocess postprocess)
                                   (TextBatch sentences))
                          (Raise (Exn "RuntimeError" "lime")))
                   (Exn "RuntimeError" "lime") _ _)).
  - vm_compute. do 10 apply list_elem_of_further. apply list_elem_of_here.
  - reflexivity.
Defined.

Lemma adapters_pure_witness :
  Store.read_result Store.read_array
    (Store.postprocess
       {[ 1 := Store.ODict {[ "label" := PyStr "POSITIVE"; "score" := PyFloat 0.5%float ]};
          2 := Store.OList [Store.HRef 1];
          3 := Store.OList [Store.HRef 2] ]}
       (Store.HRef 3))
  = Some (Ok (NDArray [[PyFloat 0.5%float]])).
Proof.
  rewrite (proj1 (proj2 (proj2 (proj2 adapters_pure))) _ _
             [[ {[ "label" := PyStr "POSITIVE"; "score" := PyFloat 0.5%float ]} ]]).
  - vm_compute. reflexivity.
  - vm_compute. reflexivity.
Defined.

Lemma postprocess_shape_witness :
  exists a,
    postprocess [ [ {[ "label" := PyStr "NEGATIVE"; "score" := PyFloat 0.75%float ]};
                    {[ "label" := PyStr "POSITIVE"; "score" := PyFloat 0.25%float ]} ] ]
    = Ok a /\
    length (tolist a) = 1.
Proof.
  eexists. split; [vm_compute; reflexivity |].
  refine (proj1 (postprocess_shape
                   [ [ {[ "label" := PyStr "NEGATIVE"; "score" := PyFloat 0.75%float ]};
                       {[ "label" := PyStr "POSITIVE"; "score" := PyFloat 0.25%float ]} ] ]
                   _ _)).
  vm_compute. reflexivity.
Defined.

Lemma postprocess_reads_scores_only_witness :
  postprocess [ [ {[ "label" := PyStr "NEGATIVE"; "score" := PyFloat 0.75%float ]} ] ]
  = postprocess [ [ {[ "label" := PyStr "LABEL_0"; "score" := PyFloat 0.75%float ]} ] ].
Proof.
  apply postprocess_reads_scores_only.
  repeat constructor.
Defined.

Lemma postprocess_again_witness :
  Store.read_outputs
    (Store.postprocess
       {[ 1 := Store.ODict {[ "label" := PyStr "POSITIVE"; "score" := PyFloat 0.5%float ]};
          2 := Store.OList [Store.HRef 1];
          3 := Store.OList [Store.HRef 2] ]}
       (Store.HRef 3)).2
    (Store.HRef 3)
  = Some [[ {[ "label" := PyStr "POSITIVE"; "score" := PyFloat 0.5%float ]} ]].
Proof.
  refine (proj1 (postprocess_again _ _ _ _)).
  vm_compute. reflexivity.
Defined.

Lemma run_raises_witness :
  (exists ev, last (calls (run (Sample.answering ∅) tt).2) = Some ev /\
              event_exn ev = Some (KeyError "shap")) \/
  (exists le name,
     omap explained (calls (run (Sample.answering ∅) tt).2) = [le] /\
     (name = "shap" \/ name = "lime") /\
     le !! name = None /\
     KeyError "shap" = KeyError name).
Proof.
  apply (run_raises (Sample.answering ∅) tt (KeyError "shap")).
  vm_compute. reflexivity.
Defined.

Lemma missing_explanation_witness :
  omap plotted (calls (run (Sample.answering ∅) tt).2) = [] /\
  omap dashboard_call (calls (run (Sample.answering ∅) tt).2) = [] /\
  (run (Sample.answering ∅) tt).1 <> Ok tt.
Proof.
  refine (proj1 (missing_explanation (Sample.answering ∅) tt ∅ _) _).
  - vm_compute. apply list_elem_of_here.
  - reflexivity.
Defined.
